(** * AskLlama: the e-mail task classifier of [cli-tools/AskLlama]

    A shallow embedding of [src/cli/scripts/config.py] and
    [src/cli/scripts/fc.py].

    - Python values are the inductive type [pyval]; dictionaries keep their
      insertion order (the order decides what [str] of a dictionary prints).
    - Module namespaces are finite maps from names to values, the process
      environment is a finite map from names to strings.
    - Statements run in the monad [Py]: a state transformer over [state]
      that either returns a value or raises.
    - The boundary of the model is the call [requests.post(url, headers=...,
      json=...)]: the call is recorded in [sent] with its three arguments and
      answered by an arbitrary [network]. *)

From stdpp Require Import base strings list gmap.
From Stdlib Require Import Ascii String NArith.

Local Set Warnings "-register-all".

(** ** Python values *)

Inductive pyval : Type :=
| PNone
| PBool (b : bool)
| PStr (s : string)
| PList (items : list pyval)
| PDict (entries : list (string * pyval)).

(** *** [repr], [str] and [format] *)

Module Repr.

Definition hex_digit (n : N) : ascii :=
  match n with
  | 0 => "0" | 1 => "1" | 2 => "2" | 3 => "3" | 4 => "4" | 5 => "5"
  | 6 => "6" | 7 => "7" | 8 => "8" | 9 => "9" | 10 => "a" | 11 => "b"
  | 12 => "c" | 13 => "d" | 14 => "e" | _ => "f"
  end%N%char.

Definition is_char (c d : ascii) : bool := Ascii.eqb c d.

(** The double quote, character 34. *)
Definition dquote : ascii := ascii_of_N 34.

Fixpoint contains (c : ascii) (s : string) : bool :=
  match s with
  | EmptyString => false
  | String d s' => is_char c d || contains c s'
  end.

(** CPython's [unicode_repr]: single quotes unless the text has a single
    quote and no double quote. *)
Definition quote_of (s : string) : ascii :=
  if contains "'" s && negb (contains dquote s) then dquote else "'"%char.

(** One character of a [repr]. Characters from 128 up stand for the bytes of
    printable non-ASCII text, which [repr] leaves as they are. *)
Definition escape_char (q c : ascii) : string :=
  let n := N_of_ascii c in
  if is_char c q || is_char c "\" then String "\" (String c EmptyString)
  else if (n =? 9)%N then "\t"
  else if (n =? 10)%N then "\n"
  else if (n =? 13)%N then "\r"
  else if (n <? 32)%N || (n =? 127)%N then
    String "\" (String "x" (String (hex_digit (n / 16))
                              (String (hex_digit (n mod 16)) EmptyString)))
  else String c EmptyString.

Fixpoint escape (q : ascii) (s : string) : string :=
  match s with
  | EmptyString => EmptyString
  | String c s' => escape_char q c +:+ escape q s'
  end.

Definition str_repr (s : string) : string :=
  let q := quote_of s in
  String q (escape q s +:+ String q EmptyString).

(** [", ".join(parts)] *)
Fixpoint join (sep : string) (parts : list string) : string :=
  match parts with
  | [] => ""
  | [p] => p
  | p :: rest => p +:+ sep +:+ join sep rest
  end.

Fixpoint py_repr (v : pyval) : string :=
  match v with
  | PNone => "None"
  | PBool true => "True"
  | PBool false => "False"
  | PStr s => str_repr s
  | PList items => "[" +:+ join ", " (map py_repr items) +:+ "]"
  | PDict entries =>
      "{" +:+ join ", " (map (fun kv => str_repr (fst kv) +:+ ": " +:+ py_repr (snd kv))
                             entries) +:+ "}"
  end.

(** [str(v)]: a string is itself, everything else prints as its [repr]. *)
Definition py_str (v : pyval) : string :=
  match v with
  | PStr s => s
  | _ => py_repr v
  end.

(** [format(v, '')], what a replacement field [{v}] of an f-string
    evaluates to. For the types of [pyval] it is [str(v)]. *)
Definition py_format (v : pyval) : string := py_str v.

End Repr.
Export Repr.

(** *** f-strings *)

Inductive fpart : Type :=
| FLit (text : string)
| FExpr (value : pyval).

Definition fpart_render (p : fpart) : string :=
  match p with
  | FLit text => text
  | FExpr value => py_format value
  end.

Definition fstring (parts : list fpart) : string :=
  foldr (fun p acc => fpart_render p +:+ acc) "" parts.

(** *** Dictionaries with string keys, in insertion order *)

Fixpoint dict_get (k : string) (entries : list (string * pyval)) : option pyval :=
  match entries with
  | [] => None
  | (k', v) :: rest => if String.eqb k k' then Some v else dict_get k rest
  end.

(** [d[k] = v]: an existing key keeps its position, a new key goes last. *)
Fixpoint dict_set (k : string) (v : pyval) (entries : list (string * pyval))
  : list (string * pyval) :=
  match entries with
  | [] => [(k, v)]
  | (k', v') :: rest =>
      if String.eqb k k' then (k, v) :: rest else (k', v') :: dict_set k v rest
  end.

(** A dictionary display [{k1: v1, ..., kn: vn}] stores its items from left
    to right. *)
Definition dict_literal (items : list (string * pyval)) : pyval :=
  PDict (fold_left (fun d kv => dict_set (fst kv) (snd kv) d) items []).

Definition dict_keys (v : pyval) : list string :=
  match v with
  | PDict entries => map fst entries
  | _ => []
  end.

(** *** Paths into a value: [v["messages"][1]["content"]] *)

Inductive step : Type :=
| Key (k : string)
| Idx (i : nat).

Fixpoint get_path (p : list step) (v : pyval) : option pyval :=
  match p with
  | [] => Some v
  | Key k :: p' =>
      match v with
      | PDict entries => dict_get k entries ≫= get_path p'
      | _ => None
      end
  | Idx i :: p' =>
      match v with
      | PList items => items !! i ≫= get_path p'
      | _ => None
      end
  end.

(** The shape of a value: what is left when the text of every string and the
    value of every boolean is forgotten. Keys stay. *)
Inductive shape : Type :=
| SNone
| SBool
| SStr
| SList (items : list shape)
| SDict (entries : list (string * shape)).

Fixpoint shape_of (v : pyval) : shape :=
  match v with
  | PNone => SNone
  | PBool _ => SBool
  | PStr _ => SStr
  | PList items => SList (map shape_of items)
  | PDict entries => SDict (map (fun kv => (fst kv, shape_of (snd kv))) entries)
  end.

#[global] Instance step_eq_dec : EqDecision step.
Proof. solve_decision. Defined.

(** [v[p] = new] for a path whose every step exists. *)
Fixpoint set_path (p : list step) (new v : pyval) : option pyval :=
  match p with
  | [] => Some new
  | Key k :: p' =>
      match v with
      | PDict entries =>
          old ← dict_get k entries;
          inner ← set_path p' new old;
          Some (PDict (dict_set k inner entries))
      | _ => None
      end
  | Idx i :: p' =>
      match v with
      | PList items =>
          old ← items !! i;
          inner ← set_path p' new old;
          Some (PList (<[i := inner]> items))
      | _ => None
      end
  end.

(** ** Requests, responses and the interpreter state *)

Record request : Type := Request {
  req_url : pyval;
  req_headers : pyval;
  req_json : pyval
}.

Record response : Type := Response {
  status_code : Z;
  response_headers : list (string * string);
  text : string
}.

Inductive exn : Type :=
| NameError (name : string)
| ImportError (name : string)
| RequestException (reason : string).

Inductive outcome (A : Type) : Type :=
| Returns (a : A)
| Raises (e : exn).
Arguments Returns {A} a.
Arguments Raises {A} e.

(** [environ] is [os.environ]; [config_globals] and [fc_globals] are the
    namespaces of the two modules; [sent] lists the calls of
    [requests.post], oldest first. *)
Record state : Type := State {
  environ : gmap string string;
  config_globals : gmap string pyval;
  fc_globals : gmap string pyval;
  sent : list request
}.

Inductive module_name : Type := Config | Fc.

Definition namespace (m : module_name) (st : state) : gmap string pyval :=
  match m with
  | Config => config_globals st
  | Fc => fc_globals st
  end.

Definition with_namespace (m : module_name) (g : gmap string pyval) (st : state) : state :=
  match m with
  | Config => State (environ st) g (fc_globals st) (sent st)
  | Fc => State (environ st) (config_globals st) g (sent st)
  end.

Definition boot (env : gmap string string) : state := State env ∅ ∅ [].

(** ** The monad of statements *)

Definition Py (A : Type) : Type := state -> outcome A * state.

Definition ret {A} (a : A) : Py A := fun st => (Returns a, st).

Definition raise {A} (e : exn) : Py A := fun st => (Raises e, st).

Definition bind {A B} (c : Py A) (k : A -> Py B) : Py B :=
  fun st =>
    match c st with
    | (Returns a, st') => k a st'
    | (Raises e, st') => (Raises e, st')
    end.

Declare Scope py_scope.
Delimit Scope py_scope with py.
Notation "x <- c ;; k" := (bind c (fun x => k))
  (at level 100, c at next level, right associativity) : py_scope.
Notation "c ;; k" := (bind c (fun _ => k))
  (at level 100, right associativity) : py_scope.
Local Open Scope py_scope.

(** [os.getenv(key)]: the value, or [None] when the variable is not set. *)
Definition getenv (env : gmap string string) (key : string) : pyval :=
  match env !! key with
  | Some value => PStr value
  | None => PNone
  end.

Definition os_getenv (key : string) : Py pyval :=
  fun st => (Returns (getenv (environ st) key), st).

(** Reading a global name; an unbound name raises [NameError]. *)
Definition load (m : module_name) (name : string) : Py pyval :=
  fun st =>
    match namespace m st !! name with
    | Some v => (Returns v, st)
    | None => (Raises (NameError name), st)
    end.

(** [name = v] at module level. *)
Definition store (m : module_name) (name : string) (v : pyval) : Py unit :=
  fun st => (Returns tt, with_namespace m (<[name := v]> (namespace m st)) st).

(** ** config.py *)

Definition config_py : Py unit :=
  llm_address <- os_getenv "LOCAL_LLM_BASE_ADDRESS" ;;
  store Config "llm_address" llm_address ;;
  llm_address <- load Config "llm_address" ;;
  store Config "api_url"
    (PStr (fstring [FLit "http://"; FExpr llm_address; FLit "/api/chat/completions"])) ;;
  store Config "default_model" (PStr "llama3.2:latest") ;;
  jwt <- os_getenv "OPEN_WEBUI_JWT" ;;
  store Config "jwt" jwt.

(** ** fc.py *)

(** [from config import n1, ..., nk], once [config] has been executed: each
    name is read from the namespace of [config] and bound in [fc]. *)
Fixpoint import_from_config (names : list string) : Py unit :=
  match names with
  | [] => ret tt
  | name :: rest =>
      fun st =>
        match config_globals st !! name with
        | Some v => (store Fc name v ;; import_from_config rest) st
        | None => (Raises (ImportError name), st)
        end
  end.

(** The module body up to the [def]: the import from [config] and
    [model = default_model]. [import sys] and [import requests] bind library
    modules that the model does not hold as values: the one use of them,
    [requests.post], is the primitive [requests_post] below. *)
Definition fc_py : Py unit :=
  config_py ;;
  import_from_config ["api_url"; "default_model"; "jwt"] ;;
  default_model <- load Fc "default_model" ;;
  store Fc "model" default_model.

(** The local [headers] of [is_task_email]. *)
Definition headers (jwt : pyval) : pyval :=
  dict_literal
    [ ("Authorization", PStr (fstring [FLit "Bearer "; FExpr jwt]));
      ("Content-Type", PStr "application/json") ].

(** The local [schema]. *)
Definition schema : pyval :=
  dict_literal
    [ ("result", dict_literal
         [ ("type", PStr "boolean");
           ("description", PStr "True if the email contains a task, false otherwise.") ]);
      ("task_subject", dict_literal
         [ ("type", PStr "string");
           ("description", PStr "Then the subject of the task, if result is true.") ]);
      ("task_description", dict_literal
         [ ("type", PStr "string");
           ("description",
            PStr "A description of the task that the user needs to do, if result is true.") ]) ].

(** The text of the system turn: two adjacent literals, the second an
    f-string with the replacement field [{schema}]. *)
Definition system_content : string :=
  fstring
    [ FLit "You are a helpful AI assistant. The user will provide the content of an email ";
      FLit "and you will respond according to the provided schema: ";
      FExpr schema;
      FLit "." ].

(** The local [payload]. *)
Definition payload (model email_content : pyval) : pyval :=
  dict_literal
    [ ("model", model);
      ("messages", PList
         [ dict_literal [ ("role", PStr "system"); ("content", PStr system_content) ];
           dict_literal [ ("role", PStr "user"); ("content", email_content) ] ]);
      ("format", dict_literal [ ("type", PStr "object"); ("properties", schema) ]);
      ("stream", PBool false) ].

Section Classifier.

(** What the HTTP client and the service behind it do with a call: given
    the calls made so far and the new one, a response or a failure. *)
Variable network : list request -> request -> response + string.

(** [requests.post(url, headers=headers, json=json)] *)
Definition requests_post (url headers json : pyval) : Py response :=
  fun st =>
    let r := Request url headers json in
    let st' := State (environ st) (config_globals st) (fc_globals st) (sent st ++ [r]) in
    match network (sent st) r with
    | inl resp => (Returns resp, st')
    | inr reason => (Raises (RequestException reason), st')
    end.

Definition is_task_email (email_content : pyval) : Py response :=
  jwt <- load Fc "jwt" ;;
  let headers := headers jwt in
  let schema := schema in
  model <- load Fc "model" ;;
  let payload := payload model email_content in
  api_url <- load Fc "api_url" ;;
  response <- requests_post api_url headers payload ;;
  ret response.

(** The states of a process that has imported [fc] under the environment
    [env] and has since called [is_task_email] any number of times. *)
Inductive running (env : gmap string string) : state -> Prop :=
| running_loaded st :
    fc_py (boot env) = (Returns tt, st) -> running env st
| running_called st email_content :
    running env st -> running env (snd (is_task_email email_content st)).

End Classifier.

(** ** Names used in the statements *)

Definition api_url_of (env : gmap string string) : pyval :=
  PStr (fstring [FLit "http://"; FExpr (getenv env "LOCAL_LLM_BASE_ADDRESS");
                 FLit "/api/chat/completions"]).

Definition loaded_config (env : gmap string string) : gmap string pyval :=
  <["jwt" := getenv env "OPEN_WEBUI_JWT"]>
    (<["default_model" := PStr "llama3.2:latest"]>
       (<["api_url" := api_url_of env]>
          (<["llm_address" := getenv env "LOCAL_LLM_BASE_ADDRESS"]> ∅))).

Definition loaded_fc (env : gmap string string) : gmap string pyval :=
  <["model" := PStr "llama3.2:latest"]>
    (<["jwt" := getenv env "OPEN_WEBUI_JWT"]>
       (<["default_model" := PStr "llama3.2:latest"]>
          (<["api_url" := api_url_of env]> ∅))).

(** [payload["messages"][1]["content"]] *)
Definition user_content_path : list step := [Key "messages"; Idx 1; Key "content"].

(** The request that a call with [email_content] hands to [requests.post]
    in a process started under [env]. *)
Definition request_of (env : gmap string string) (email_content : pyval) : request :=
  Request (api_url_of env)
          (headers (getenv env "OPEN_WEBUI_JWT"))
          (payload (PStr "llama3.2:latest") email_content).

(** What a call of [requests.post] with the request [r] evaluates to in the
    state [st], and the state it leaves. *)
Definition answer (network : list request -> request -> response + string)
    (st : state) (r : request) : outcome response :=
  match network (sent st) r with
  | inl resp => Returns resp
  | inr reason => Raises (RequestException reason)
  end.

Definition after_post (st : state) (r : request) : state :=
  State (environ st) (config_globals st) (fc_globals st) (sent st ++ [r]).

(** The state right after [fc] is imported under [env]. *)
Definition loaded_state (env : gmap string string) : state :=
  State env (loaded_config env) (loaded_fc env) [].

(** An environment with both variables set, and the process started in it. *)
Definition office_env : gmap string string :=
  <["OPEN_WEBUI_JWT" := "s3cr3t"]> (<["LOCAL_LLM_BASE_ADDRESS" := "localhost:3000"]> ∅).

Definition office : state := loaded_state office_env.

(** The shape of every payload: four keys, two turns, three declared fields. *)
Definition payload_shape : shape :=
  let turn := SDict [("role", SStr); ("content", SStr)] in
  let field := SDict [("type", SStr); ("description", SStr)] in
  SDict [ ("model", SStr);
          ("messages", SList [turn; turn]);
          ("format", SDict [ ("type", SStr);
                             ("properties", SDict [ ("result", field);
                                                    ("task_subject", field);
                                                    ("task_description", field) ]) ]);
          ("stream", SBool) ].

(** The first of the two literals of the system turn, and the second up to
    its replacement field. *)
Definition instruction : string :=
  "You are a helpful AI assistant. The user will provide the content of an email " +:+
  "and you will respond according to the provided schema: ".

(** A service that answers every call with an empty 200, one that answers
    503 with a header and a body, and one that is never reached. *)
Definition ok_network : list request -> request -> response + string :=
  fun _ _ => inl (Response 200 [] "").

Definition busy_network : list request -> request -> response + string :=
  fun _ _ => inl (Response 503 [("Retry-After", "5")] "busy").

Definition dead_network : list request -> request -> response + string :=
  fun _ _ => inr "connection refused".

(** ** Names used in the further properties *)

(** Calls made one after the other, each result dropped. *)
Definition call_each (network : list request -> request -> response + string)
    (emails : list pyval) (st : state) : state :=
  fold_left (fun st' email => snd (is_task_email network email st')) emails st.




(** A second environment, with another service and another token. *)
Definition home_env : gmap string string :=
  <["OPEN_WEBUI_JWT" := "t0k3n"]> (<["LOCAL_LLM_BASE_ADDRESS" := "10.0.0.7:8080"]> ∅).

Definition home : state := loaded_state home_env.

(** * Properties *)

(** ** The state after the modules are loaded *)

(** Reading a name from a namespace written as a chain of stores. *)
Ltac read_global :=
  repeat first [rewrite lookup_insert_eq | rewrite lookup_insert_ne by discriminate];
  cbv beta iota.

Lemma config_py_boot env :
  config_py (boot env) = (Returns tt, State env (loaded_config env) ∅ []).
Proof.
  unfold config_py, bind, os_getenv, store, load, boot; simpl.
  rewrite lookup_insert_eq. reflexivity.
Qed.

Lemma fc_py_boot env :
  fc_py (boot env) = (Returns tt, State env (loaded_config env) (loaded_fc env) []).
Proof.
  unfold fc_py, bind. rewrite config_py_boot.
  unfold import_from_config, bind, store, load, ret, loaded_config; simpl.
  repeat (read_global; simpl).
  reflexivity.
Qed.

(** ** Dictionaries and paths *)

Lemma dict_get_set_eq k v entries : dict_get k (dict_set k v entries) = Some v.
Proof.
  induction entries as [|[k' v'] rest IH]; simpl.
  - rewrite String.eqb_refl. reflexivity.
  - destruct (String.eqb k k') eqn:E; simpl.
    + rewrite String.eqb_refl. reflexivity.
    + rewrite E. exact IH.
Qed.

Lemma dict_get_set_ne k k' v entries :
  k ≠ k' -> dict_get k' (dict_set k v entries) = dict_get k' entries.
Proof.
  intros Hne. induction entries as [|[k0 v0] rest IH]; simpl.
  - destruct (String.eqb_spec k' k); [congruence | reflexivity].
  - destruct (String.eqb_spec k k0) as [->|Hk]; simpl.
    + destruct (String.eqb_spec k' k0); [congruence | reflexivity].
    + destruct (String.eqb_spec k' k0); [reflexivity | exact IH].
Qed.

Lemma get_path_app p q v : get_path (p ++ q) v = get_path p v ≫= get_path q.
Proof.
  revert v. induction p as [|[k|i] p IH]; intros v; simpl; [reflexivity | |].
  - destruct v; try reflexivity.
    destruct (dict_get k entries); simpl; [apply IH | reflexivity].
  - destruct v; try reflexivity.
    destruct (items !! i); simpl; [apply IH | reflexivity].
Qed.

(** An assignment at [t] is not seen by a read at a path that leaves [t]. *)
Lemma get_set_frame t new :
  forall v v' p,
    set_path t new v = Some v' ->
    ¬ p `prefix_of` t -> ¬ t `prefix_of` p ->
    get_path p v' = get_path p v.
Proof.
  induction t as [|s t IH]; intros v v' p Hset Hpt Htp.
  - exfalso. apply Htp. apply prefix_nil.
  - destruct p as [|s' p].
    { exfalso. apply Hpt. apply prefix_nil. }
    assert (Hrec : s = s' -> ¬ p `prefix_of` t ∧ ¬ t `prefix_of` p).
    { intros ->. split; intros H; [apply Hpt | apply Htp]; by apply prefix_cons. }
    destruct s as [k|i]; simpl in Hset; destruct v; try discriminate.
    + destruct (dict_get k entries) as [old|] eqn:Hold; simpl in Hset; [|discriminate].
      destruct (set_path t new old) as [inner|] eqn:Hin; simpl in Hset; [|discriminate].
      inversion Hset; subst v'; clear Hset.
      destruct s' as [k'|i']; simpl; [|reflexivity].
      destruct (decide (k = k')) as [<-|Hne].
      * rewrite dict_get_set_eq, Hold; simpl.
        destruct (Hrec eq_refl). eapply IH; eauto.
      * rewrite dict_get_set_ne by exact Hne. reflexivity.
    + destruct (items !! i) as [old|] eqn:Hold; simpl in Hset; [|discriminate].
      destruct (set_path t new old) as [inner|] eqn:Hin; simpl in Hset; [|discriminate].
      inversion Hset; subst v'; clear Hset.
      destruct s' as [k'|i']; simpl; [reflexivity|].
      destruct (decide (i = i')) as [<-|Hne].
      * rewrite list_lookup_insert_eq by (eapply lookup_lt_Some; eauto).
        rewrite Hold; simpl. destruct (Hrec eq_refl). eapply IH; eauto.
      * rewrite list_lookup_insert_ne by exact Hne. reflexivity.
Qed.

(** ** What the locals of [is_task_email] evaluate to *)

Lemma append_empty_r (s : string) : s +:+ "" = s.
Proof.
  induction s as [|c s IH]; [reflexivity|].
  change (String c (s +:+ "") = String c s). by rewrite IH.
Qed.

Lemma headers_eq jwt :
  headers jwt =
  PDict [ ("Authorization", PStr ("Bearer " +:+ py_format jwt));
          ("Content-Type", PStr "application/json") ].
Proof.
  rewrite <- (append_empty_r (py_format jwt)). reflexivity.
Qed.

Lemma payload_eq model email_content :
  payload model email_content =
  PDict [ ("model", model);
          ("messages", PList
             [ PDict [ ("role", PStr "system"); ("content", PStr system_content) ];
               PDict [ ("role", PStr "user"); ("content", email_content) ] ]);
          ("format", PDict [ ("type", PStr "object"); ("properties", schema) ]);
          ("stream", PBool false) ].
Proof. reflexivity. Qed.

(** ** One call *)

Section Calls.

Variable network : list request -> request -> response + string.

Abbreviation answer := (answer network).

Lemma requests_post_run url hs js st :
  requests_post network url hs js st =
  (answer st (Request url hs js), after_post st (Request url hs js)).
Proof.
  unfold requests_post, answer, after_post.
  destruct (network (sent st) (Request url hs js)); reflexivity.
Qed.

(** In a state whose [fc] namespace is the loaded one, a call is the POST
    of [request_of] and nothing else. *)
Lemma is_task_email_loaded env st email_content :
  fc_globals st = loaded_fc env ->
  is_task_email network email_content st =
  (answer st (request_of env email_content),
   after_post st (request_of env email_content)).
Proof.
  intros Hg. unfold is_task_email, bind, load, ret, namespace.
  repeat (rewrite Hg; unfold loaded_fc; read_global).
  rewrite requests_post_run. fold (request_of env email_content).
  destruct (answer st (request_of env email_content)); reflexivity.
Qed.

Lemma running_inv env st :
  running network env st ->
  environ st = env ∧ config_globals st = loaded_config env ∧ fc_globals st = loaded_fc env.
Proof.
  induction 1 as [st Hload | st v Hrun (He & Hc & Hf)].
  - rewrite fc_py_boot in Hload. inversion Hload; subst st. auto.
  - rewrite (is_task_email_loaded env) by exact Hf. simpl. auto.
Qed.

Lemma is_task_email_run env st email_content :
  running network env st ->
  is_task_email network email_content st =
  (answer st (request_of env email_content),
   after_post st (request_of env email_content)).
Proof.
  intros Hrun. apply is_task_email_loaded. apply (running_inv env st Hrun).
Qed.

End Calls.

Lemma running_loaded_state network env : running network env (loaded_state env).
Proof. apply running_loaded. apply fc_py_boot. Qed.

(** Every call from a running process posts [request_of] once. *)
Lemma sent_after_call network env st email_content :
  running network env st ->
  sent (snd (is_task_email network email_content st)) =
  sent st ++ [request_of env email_content].
Proof. intros Hrun. by rewrite (is_task_email_run network env). Qed.

(** * The claims *)

(** C1: for every input string [s], a call of [is_task_email] adds exactly one
    request to the calls of [requests.post], and in the payload of that request
    [messages[1].content] is the string [s] itself. *)
Theorem user_content_verbatim network env st (s : string) :
  running network env st ->
  ∃ req,
    sent (snd (is_task_email network (PStr s) st)) = sent st ++ [req]
    ∧ get_path user_content_path (req_json req) = Some (PStr s).
Proof.
  intros Hrun. exists (request_of env (PStr s)). split.
  - by apply sent_after_call.
  - reflexivity.
Qed.

Lemma user_content_verbatim_witness :
  running ok_network office_env office
  ∧ ∃ req,
      sent (snd (is_task_email ok_network
                   (PStr "Please send the Q3 report by Friday") office)) = sent office ++ [req]
      ∧ get_path user_content_path (req_json req)
        = Some (PStr "Please send the Q3 report by Friday").
Proof.
  split.
  - apply running_loaded_state.
  - apply (user_content_verbatim ok_network office_env office).
    apply running_loaded_state.
Defined.

(** C3: for every input string, the [stream] field of the payload that
    [is_task_email] posts is the boolean [False]. *)
Theorem stream_is_false network env st (s : string) :
  running network env st ->
  ∃ req,
    sent (snd (is_task_email network (PStr s) st)) = sent st ++ [req]
    ∧ get_path [Key "stream"] (req_json req) = Some (PBool false).
Proof.
  intros Hrun. exists (request_of env (PStr s)). split.
  - by apply sent_after_call.
  - reflexivity.
Qed.

Lemma stream_is_false_witness :
  running dead_network office_env office
  ∧ ∃ req,
      sent (snd (is_task_email dead_network (PStr "Happy birthday!") office))
      = sent office ++ [req]
      ∧ get_path [Key "stream"] (req_json req) = Some (PBool false).
Proof.
  split.
  - apply running_loaded_state.
  - apply (stream_is_false dead_network office_env office).
    apply running_loaded_state.
Defined.

(** C4: for every input string, the [format] field of the posted payload is a
    dictionary with [type] equal to ['object'] whose [properties] has exactly
    the keys [result], [task_subject] and [task_description], with the types
    boolean, string and string. *)
Theorem format_declares_three_fields network env st (s : string) :
  running network env st ->
  ∃ req props,
    sent (snd (is_task_email network (PStr s) st)) = sent st ++ [req]
    ∧ dict_keys <$> get_path [Key "format"] (req_json req) = Some ["type"; "properties"]
    ∧ get_path [Key "format"; Key "type"] (req_json req) = Some (PStr "object")
    ∧ get_path [Key "format"; Key "properties"] (req_json req) = Some props
    ∧ dict_keys props = ["result"; "task_subject"; "task_description"]
    ∧ get_path [Key "result"; Key "type"] props = Some (PStr "boolean")
    ∧ get_path [Key "task_subject"; Key "type"] props = Some (PStr "string")
    ∧ get_path [Key "task_description"; Key "type"] props = Some (PStr "string").
Proof.
  intros Hrun. exists (request_of env (PStr s)), schema.
  split; [by apply sent_after_call|].
  repeat split; reflexivity.
Qed.

Lemma format_declares_three_fields_witness :
  running ok_network office_env office
  ∧ ∃ req props,
      sent (snd (is_task_email ok_network (PStr "") office)) = sent office ++ [req]
      ∧ dict_keys <$> get_path [Key "format"] (req_json req) = Some ["type"; "properties"]
      ∧ get_path [Key "format"; Key "type"] (req_json req) = Some (PStr "object")
      ∧ get_path [Key "format"; Key "properties"] (req_json req) = Some props
      ∧ dict_keys props = ["result"; "task_subject"; "task_description"]
      ∧ get_path [Key "result"; Key "type"] props = Some (PStr "boolean")
      ∧ get_path [Key "task_subject"; Key "type"] props = Some (PStr "string")
      ∧ get_path [Key "task_description"; Key "type"] props = Some (PStr "string").
Proof.
  split.
  - apply running_loaded_state.
  - apply (format_declares_three_fields ok_network office_env office).
    apply running_loaded_state.
Defined.

(** C6: for every input string, [messages] in the posted payload is a list of
    exactly two turns: the first has role ['system'] and as content the
    instruction followed by [str(schema)] and a full stop, the second has role
    ['user'] and as content the e-mail text as it was given. *)
Theorem messages_are_two_turns network env st (s : string) :
  running network env st ->
  ∃ req sys,
    sent (snd (is_task_email network (PStr s) st)) = sent st ++ [req]
    ∧ get_path [Key "messages"] (req_json req)
      = Some (PList [ PDict [("role", PStr "system"); ("content", PStr sys)];
                      PDict [("role", PStr "user"); ("content", PStr s)] ])
    ∧ sys = instruction +:+ py_str schema +:+ "."
    ∧ py_str schema =
      "{'result': {'type': 'boolean', 'description': 'True if the email contains a task, false otherwise.'}, 'task_subject': {'type': 'string', 'description': 'Then the subject of the task, if result is true.'}, 'task_description': {'type': 'string', 'description': 'A description of the task that the user needs to do, if result is true.'}}".
Proof.
  intros Hrun. exists (request_of env (PStr s)), system_content.
  split; [by apply sent_after_call|].
  repeat split; vm_compute; reflexivity.
Qed.

Lemma messages_are_two_turns_witness :
  running ok_network office_env office
  ∧ ∃ req sys,
      sent (snd (is_task_email ok_network (PStr "Happy birthday!") office))
      = sent office ++ [req]
      ∧ get_path [Key "messages"] (req_json req)
        = Some (PList [ PDict [("role", PStr "system"); ("content", PStr sys)];
                        PDict [("role", PStr "user"); ("content", PStr "Happy birthday!")] ])
      ∧ sys = instruction +:+ py_str schema +:+ "."
      ∧ py_str schema =
        "{'result': {'type': 'boolean', 'description': 'True if the email contains a task, false otherwise.'}, 'task_subject': {'type': 'string', 'description': 'Then the subject of the task, if result is true.'}, 'task_description': {'type': 'string', 'description': 'A description of the task that the user needs to do, if result is true.'}}".
Proof.
  split.
  - apply running_loaded_state.
  - apply (messages_are_two_turns ok_network office_env office).
    apply running_loaded_state.
Defined.

(** C7: what [is_task_email] returns is the response object that the POST
    produced, whatever its status, headers and body; a failure of the POST
    reaches the caller as it was raised. *)
Theorem response_returned_unmodified network env st (s : string) :
  running network env st ->
  ∃ req,
    sent (snd (is_task_email network (PStr s) st)) = sent st ++ [req]
    ∧ fst (is_task_email network (PStr s) st)
      = match network (sent st) req with
        | inl resp => Returns resp
        | inr reason => Raises (RequestException reason)
        end.
Proof.
  intros Hrun. exists (request_of env (PStr s)).
  by rewrite (is_task_email_run network env).
Qed.

Lemma response_returned_unmodified_witness :
  running busy_network office_env office
  ∧ ∃ req,
      sent (snd (is_task_email busy_network (PStr "hello") office)) = sent office ++ [req]
      ∧ fst (is_task_email busy_network (PStr "hello") office)
        = match busy_network (sent office) req with
          | inl resp => Returns resp
          | inr reason => Raises (RequestException reason)
          end.
Proof.
  split.
  - apply running_loaded_state.
  - apply (response_returned_unmodified busy_network office_env office).
    apply running_loaded_state.
Defined.

(** C8: a call of [is_task_email] makes exactly one call of [requests.post],
    to the URL bound to [api_url], also when the service fails; it leaves the
    environment and the namespaces of both modules as they were; and a second
    call with the same text posts again. *)
Theorem one_post_and_nothing_else network env st (s : string) :
  running network env st ->
  let st' := snd (is_task_email network (PStr s) st) in
  environ st' = environ st
  ∧ config_globals st' = config_globals st
  ∧ fc_globals st' = fc_globals st
  ∧ List.length (sent st') = S (List.length (sent st))
  ∧ ∃ req,
      sent st' = sent st ++ [req]
      ∧ fc_globals st !! "api_url" = Some (req_url req)
      ∧ sent (snd (is_task_email network (PStr s) st')) = sent st ++ [req; req].
Proof.
  intros Hrun st'.
  assert (Hrun' : running network env st') by (by apply running_called).
  subst st'. rewrite (sent_after_call network env (snd _)) by exact Hrun'.
  rewrite (is_task_email_run network env st) by exact Hrun. simpl.
  repeat split; try reflexivity.
  - rewrite length_app. simpl. lia.
  - exists (request_of env (PStr s)). repeat split.
    + destruct (running_inv network env st Hrun) as (_ & _ & ->).
      unfold loaded_fc. by read_global.
    + by rewrite <- app_assoc.
Qed.

Lemma one_post_and_nothing_else_witness :
  running dead_network office_env office
  ∧ let st' := snd (is_task_email dead_network (PStr "hello") office) in
    environ st' = environ office
    ∧ config_globals st' = config_globals office
    ∧ fc_globals st' = fc_globals office
    ∧ List.length (sent st') = S (List.length (sent office))
    ∧ ∃ req,
        sent st' = sent office ++ [req]
        ∧ fc_globals office !! "api_url" = Some (req_url req)
        ∧ sent (snd (is_task_email dead_network (PStr "hello") st')) = sent office ++ [req; req].
Proof.
  split.
  - apply running_loaded_state.
  - apply (one_post_and_nothing_else dead_network office_env office).
    apply running_loaded_state.
Defined.

(** Below the user content there is nothing to read. *)
Lemma get_path_below_str q s : q ≠ [] -> get_path q (PStr s) = None.
Proof. destruct q as [|[k|i] q]; [congruence | reflexivity | reflexivity]. Qed.

(** Two payloads for the same model agree wherever a read does not go
    through the user content. *)
Lemma payload_frame model (s1 s2 : string) p :
  ¬ p `prefix_of` user_content_path ->
  get_path p (payload model (PStr s1)) = get_path p (payload model (PStr s2)).
Proof.
  intros Hp.
  destruct (decide (user_content_path `prefix_of` p)) as [[q ->]|Hnot].
  - assert (q ≠ []) as Hq.
    { intros ->. apply Hp. rewrite app_nil_r. reflexivity. }
    rewrite !get_path_app.
    change (get_path user_content_path (payload model (PStr s1))) with (Some (PStr s1)).
    change (get_path user_content_path (payload model (PStr s2))) with (Some (PStr s2)).
    simpl. by rewrite !get_path_below_str.
  - symmetry. apply (get_set_frame user_content_path (PStr s2)); [reflexivity | done | done].
Qed.

(** C9: two calls under the same configuration, with e-mail texts [s1] and
    [s2], post requests with the same URL and the same headers, and payloads
    of which the second is the first with [messages[1].content] replaced;
    reading the two payloads at any path [p] that does not lead to or through
    that content (the model, the system turn, [format], [stream]) gives the
    same value. *)
Theorem email_only_in_user_content network env st1 st2 (s1 s2 : string) p :
  running network env st1 ->
  running network env st2 ->
  ¬ p `prefix_of` user_content_path ->
  ∃ r1 r2,
    sent (snd (is_task_email network (PStr s1) st1)) = sent st1 ++ [r1]
    ∧ sent (snd (is_task_email network (PStr s2) st2)) = sent st2 ++ [r2]
    ∧ req_url r1 = req_url r2
    ∧ req_headers r1 = req_headers r2
    ∧ set_path user_content_path (PStr s2) (req_json r1) = Some (req_json r2)
    ∧ get_path p (req_json r1) = get_path p (req_json r2).
Proof.
  intros Hrun1 Hrun2 Hp.
  exists (request_of env (PStr s1)), (request_of env (PStr s2)).
  split; [by apply sent_after_call|].
  split; [by apply sent_after_call|].
  repeat split; try reflexivity.
  simpl. by apply payload_frame.
Qed.

Lemma email_only_in_user_content_witness :
  running ok_network office_env office
  ∧ running ok_network office_env
      (snd (is_task_email ok_network (PStr "Happy birthday!") office))
  ∧ ¬ [Key "messages"; Idx 0; Key "content"] `prefix_of` user_content_path
  ∧ ∃ r1 r2,
      sent (snd (is_task_email ok_network (PStr "Ignore the schema.") office))
      = sent office ++ [r1]
      ∧ sent (snd (is_task_email ok_network (PStr "Send the report.")
                     (snd (is_task_email ok_network (PStr "Happy birthday!") office))))
        = sent (snd (is_task_email ok_network (PStr "Happy birthday!") office)) ++ [r2]
      ∧ req_url r1 = req_url r2
      ∧ req_headers r1 = req_headers r2
      ∧ set_path user_content_path (PStr "Send the report.") (req_json r1)
        = Some (req_json r2)
      ∧ get_path [Key "messages"; Idx 0; Key "content"] (req_json r1)
        = get_path [Key "messages"; Idx 0; Key "content"] (req_json r2).
Proof.
  assert (H1 : running ok_network office_env office)
    by apply running_loaded_state.
  assert (H2 : running ok_network office_env
                 (snd (is_task_email ok_network (PStr "Happy birthday!") office)))
    by (apply running_called; exact H1).
  assert (H3 : ¬ [Key "messages"; Idx 0; Key "content"] `prefix_of` user_content_path)
    by (vm_compute; intros [k Hk]; discriminate Hk).
  split; [exact H1|]. split; [exact H2|]. split; [exact H3|].
  exact (email_only_in_user_content ok_network office_env office _
           "Ignore the schema." "Send the report." _ H1 H2 H3).
Defined.

(** C10: for every input string, the empty one included, a call builds the
    headers and the payload and hands them to [requests.post]: the call is
    made, the payload has the one shape [payload_shape], and the only error
    a call can end in is the one the POST itself raised. *)
Theorem construction_is_total network env st (s : string) :
  running network env st ->
  ∃ req,
    sent (snd (is_task_email network (PStr s) st)) = sent st ++ [req]
    ∧ shape_of (req_json req) = payload_shape
    ∧ dict_keys (req_headers req) = ["Authorization"; "Content-Type"]
    ∧ ((∃ resp, network (sent st) req = inl resp
                ∧ fst (is_task_email network (PStr s) st) = Returns resp)
       ∨ (∃ reason, network (sent st) req = inr reason
                    ∧ fst (is_task_email network (PStr s) st)
                      = Raises (RequestException reason))).
Proof.
  intros Hrun. exists (request_of env (PStr s)).
  rewrite (is_task_email_run network env st) by exact Hrun.
  repeat split; try reflexivity.
  unfold answer; simpl.
  destruct (network (sent st) (request_of env (PStr s))) as [resp|reason]; eauto.
Qed.

Lemma construction_is_total_witness :
  running dead_network office_env office
  ∧ ∃ req,
      sent (snd (is_task_email dead_network (PStr "") office)) = sent office ++ [req]
      ∧ shape_of (req_json req) = payload_shape
      ∧ dict_keys (req_headers req) = ["Authorization"; "Content-Type"]
      ∧ ((∃ resp, dead_network (sent office) req = inl resp
                  ∧ fst (is_task_email dead_network (PStr "") office) = Returns resp)
         ∨ (∃ reason, dead_network (sent office) req = inr reason
                      ∧ fst (is_task_email dead_network (PStr "") office)
                        = Raises (RequestException reason))).
Proof.
  split.
  - apply running_loaded_state.
  - apply (construction_is_total dead_network office_env office).
    apply running_loaded_state.
Defined.

(** ** Configuration without validation *)

(** Loading never raises, whatever the environment holds. *)
Lemma fc_py_returns env : fst (fc_py (boot env)) = Returns tt.
Proof. by rewrite fc_py_boot. Qed.

Lemma authorization_of_request env email_content :
  get_path [Key "Authorization"] (req_headers (request_of env email_content))
  = Some (PStr ("Bearer " +:+ match env !! "OPEN_WEBUI_JWT" with
                              | Some token => token
                              | None => "None"
                              end)).
Proof.
  unfold request_of, req_headers. rewrite headers_eq. unfold getenv.
  destruct (env !! "OPEN_WEBUI_JWT"); reflexivity.
Qed.

(** C2, as the code has it: importing [fc] never raises, whatever the
    environment; the [Authorization] header of every request is ['Bearer ']
    followed by the token when [OPEN_WEBUI_JWT] is set (an empty token gives
    ['Bearer ']) and is ['Bearer None'] when it is not set. *)
Theorem authorization_header network env st (s : string) :
  running network env st ->
  fst (fc_py (boot env)) = Returns tt
  ∧ ∃ req,
      sent (snd (is_task_email network (PStr s) st)) = sent st ++ [req]
      ∧ get_path [Key "Authorization"] (req_headers req)
        = Some (PStr ("Bearer " +:+ match env !! "OPEN_WEBUI_JWT" with
                                    | Some token => token
                                    | None => "None"
                                    end)).
Proof.
  intros Hrun. split; [apply fc_py_returns|].
  exists (request_of env (PStr s)). split.
  - by apply sent_after_call.
  - apply authorization_of_request.
Qed.

Lemma authorization_header_witness :
  running ok_network office_env office
  ∧ fst (fc_py (boot office_env)) = Returns tt
  ∧ ∃ req,
      sent (snd (is_task_email ok_network (PStr "hello") office)) = sent office ++ [req]
      ∧ get_path [Key "Authorization"] (req_headers req)
        = Some (PStr ("Bearer " +:+ match office_env !! "OPEN_WEBUI_JWT" with
                                    | Some token => token
                                    | None => "None"
                                    end)).
Proof.
  split.
  - apply running_loaded_state.
  - apply (authorization_header ok_network office_env office).
    apply running_loaded_state.
Defined.

(** C2, as the claim has it, fails: with no [OPEN_WEBUI_JWT] in the
    environment the import returns normally and the call posts with
    ['Bearer None']; with an empty token it posts with ['Bearer ']. *)
Lemma missing_token_is_posted :
  (∅ : gmap string string) !! "OPEN_WEBUI_JWT" = None
  ∧ fst (fc_py (boot ∅)) = Returns tt
  ∧ map (fun r => get_path [Key "Authorization"] (req_headers r))
        (sent (snd (is_task_email ok_network (PStr "hello") (snd (fc_py (boot ∅))))))
    = [Some (PStr "Bearer None")]
  ∧ fst (fc_py (boot (<["OPEN_WEBUI_JWT" := ""]> ∅))) = Returns tt
  ∧ map (fun r => get_path [Key "Authorization"] (req_headers r))
        (sent (snd (is_task_email ok_network (PStr "hello")
                      (snd (fc_py (boot (<["OPEN_WEBUI_JWT" := ""]> ∅)))))))
    = [Some (PStr "Bearer ")].
Proof.
  rewrite !fc_py_boot. cbn [fst snd].
  change (State ?e (loaded_config ?e) (loaded_fc ?e) []) with (loaded_state e).
  rewrite (sent_after_call ok_network ∅ (loaded_state ∅))
    by apply running_loaded_state.
  rewrite (sent_after_call ok_network (<["OPEN_WEBUI_JWT" := ""]> ∅) (loaded_state _))
    by apply running_loaded_state.
  repeat split.
Qed.

(** C5, as the code has it: executing [config.py] never raises, and binds
    [api_url] to ['http://'], then the value of [LOCAL_LLM_BASE_ADDRESS] or
    the text ['None'] when the variable is not set, then
    ['/api/chat/completions']. *)
Theorem api_url_is_interpolated env :
  fst (config_py (boot env)) = Returns tt
  ∧ config_globals (snd (config_py (boot env))) !! "api_url"
    = Some (PStr ("http://" +:+ match env !! "LOCAL_LLM_BASE_ADDRESS" with
                                | Some address => address
                                | None => "None"
                                end +:+ "/api/chat/completions")).
Proof.
  rewrite config_py_boot; simpl. split; [reflexivity|].
  unfold loaded_config. read_global.
  unfold api_url_of, getenv.
  destruct (env !! "LOCAL_LLM_BASE_ADDRESS"); reflexivity.
Qed.

(** C5, as the claim has it, fails: with no [LOCAL_LLM_BASE_ADDRESS] the host
    of the URL is the text [None], not the empty string. *)
Lemma absent_address_host_is_None :
  (∅ : gmap string string) !! "LOCAL_LLM_BASE_ADDRESS" = None
  ∧ config_globals (snd (config_py (boot ∅))) !! "api_url"
    = Some (PStr "http://None/api/chat/completions")
  ∧ config_globals (snd (config_py (boot ∅))) !! "api_url"
    ≠ Some (PStr ("http://" +:+ "" +:+ "/api/chat/completions")).
Proof.
  rewrite config_py_boot; simpl. unfold loaded_config. read_global.
  repeat split. discriminate.
Qed.

(** * Further properties of the two modules *)

(** ** A call in any state *)

(** With the three globals bound, a call is one POST of what they hold. *)
Lemma is_task_email_bound network st jwt model api_url email_content :
  fc_globals st !! "jwt" = Some jwt ->
  fc_globals st !! "model" = Some model ->
  fc_globals st !! "api_url" = Some api_url ->
  is_task_email network email_content st =
  (answer network st (Request api_url (headers jwt) (payload model email_content)),
   after_post st (Request api_url (headers jwt) (payload model email_content))).
Proof.
  intros Hj Hm Hu. unfold is_task_email, bind, load, ret, namespace.
  rewrite Hj; cbv beta iota. rewrite Hm; cbv beta iota. rewrite Hu; cbv beta iota.
  rewrite requests_post_run.
  destruct (answer network st _); reflexivity.
Qed.

Lemma loaded_fc_jwt env : loaded_fc env !! "jwt" = Some (getenv env "OPEN_WEBUI_JWT").
Proof. unfold loaded_fc. by read_global. Qed.

Lemma loaded_fc_model env : loaded_fc env !! "model" = Some (PStr "llama3.2:latest").
Proof. unfold loaded_fc. by read_global. Qed.

Lemma loaded_fc_api_url env : loaded_fc env !! "api_url" = Some (api_url_of env).
Proof. unfold loaded_fc. by read_global. Qed.



(** X2: the schema that the system turn spells out is the dictionary that
    the same payload carries as [format.properties]: the content of
    [messages[0]] is the instruction, then [str] of that dictionary, then a
    full stop. *)
Theorem prompt_renders_format_properties network env st (v : pyval) :
  running network env st ->
  ∃ req props,
    sent (snd (is_task_email network v st)) = sent st ++ [req]
    ∧ get_path [Key "format"; Key "properties"] (req_json req) = Some props
    ∧ get_path [Key "messages"; Idx 0; Key "content"] (req_json req)
      = Some (PStr (instruction +:+ py_str props +:+ ".")).
Proof.
  intros Hrun. exists (request_of env v), schema.
  split; [by apply sent_after_call|].
  split; vm_compute; reflexivity.
Qed.

Lemma prompt_renders_format_properties_witness :
  running ok_network office_env office
  ∧ ∃ req props,
      sent (snd (is_task_email ok_network (PStr "hello") office)) = sent office ++ [req]
      ∧ get_path [Key "format"; Key "properties"] (req_json req) = Some props
      ∧ get_path [Key "messages"; Idx 0; Key "content"] (req_json req)
        = Some (PStr (instruction +:+ py_str props +:+ ".")).
Proof.
  split.
  - apply running_loaded_state.
  - apply (prompt_renders_format_properties ok_network office_env office).
    apply running_loaded_state.
Defined.

(** X3: the model named in the payload is ['llama3.2:latest'] whatever the
    environment holds: it comes from the literal in [config.py], through
    [default_model] and [model], and no variable of the environment can
    change it. *)
Theorem model_is_not_from_environment network env st (v : pyval) :
  running network env st ->
  ∃ req,
    sent (snd (is_task_email network v st)) = sent st ++ [req]
    ∧ get_path [Key "model"] (req_json req) = Some (PStr "llama3.2:latest").
Proof.
  intros Hrun. exists (request_of env v). split.
  - by apply sent_after_call.
  - reflexivity.
Qed.

Lemma model_is_not_from_environment_witness :
  running ok_network home_env home
  ∧ ∃ req,
      sent (snd (is_task_email ok_network (PStr "hello") home)) = sent home ++ [req]
      ∧ get_path [Key "model"] (req_json req) = Some (PStr "llama3.2:latest").
Proof.
  split.
  - apply running_loaded_state.
  - apply (model_is_not_from_environment ok_network home_env home).
    apply running_loaded_state.
Defined.

(** X4: the payload does not depend on the environment. Two processes
    started under different environments, talking to different services, post
    the same payload for the same argument, with the same [Content-Type]; the
    token and the address of the service never enter the body. *)
Theorem payload_ignores_environment network1 network2 env1 env2 st1 st2 (v : pyval) :
  running network1 env1 st1 ->
  running network2 env2 st2 ->
  ∃ r1 r2,
    sent (snd (is_task_email network1 v st1)) = sent st1 ++ [r1]
    ∧ sent (snd (is_task_email network2 v st2)) = sent st2 ++ [r2]
    ∧ req_json r1 = req_json r2
    ∧ get_path [Key "Content-Type"] (req_headers r1) = Some (PStr "application/json")
    ∧ get_path [Key "Content-Type"] (req_headers r2) = Some (PStr "application/json").
Proof.
  intros Hrun1 Hrun2. exists (request_of env1 v), (request_of env2 v).
  split; [by apply sent_after_call|].
  split; [by apply sent_after_call|].
  repeat split; reflexivity.
Qed.

Lemma payload_ignores_environment_witness :
  running ok_network office_env office
  ∧ running dead_network home_env home
  ∧ ∃ r1 r2,
      sent (snd (is_task_email ok_network (PStr "hello") office)) = sent office ++ [r1]
      ∧ sent (snd (is_task_email dead_network (PStr "hello") home)) = sent home ++ [r2]
      ∧ req_json r1 = req_json r2
      ∧ get_path [Key "Content-Type"] (req_headers r1) = Some (PStr "application/json")
      ∧ get_path [Key "Content-Type"] (req_headers r2) = Some (PStr "application/json").
Proof.
  split; [apply running_loaded_state|].
  split; [apply running_loaded_state|].
  apply (payload_ignores_environment ok_network dead_network office_env home_env office home);
    apply running_loaded_state.
Defined.

(** ** Configuration is captured when [fc] is imported *)



(** X6: [model] is looked up when the function runs. After [model = m] in
    [fc], the next payload names [m], with URL and headers as before;
    rebinding [default_model] in [fc] changes nothing. *)
Theorem model_is_read_at_call_time network env st (m v : pyval) :
  running network env st ->
  (∃ req,
      sent (snd ((store Fc "model" m ;; is_task_email network v) st)) = sent st ++ [req]
      ∧ get_path [Key "model"] (req_json req) = Some m
      ∧ req_url req = api_url_of env
      ∧ req_headers req = headers (getenv env "OPEN_WEBUI_JWT"))
  ∧ sent (snd ((store Fc "default_model" m ;; is_task_email network v) st))
    = sent (snd (is_task_email network v st)).
Proof.
  intros Hrun. destruct (running_inv network env st Hrun) as (_ & _ & Hf).
  split.
  - exists (Request (api_url_of env) (headers (getenv env "OPEN_WEBUI_JWT")) (payload m v)).
    unfold bind, store; cbn [with_namespace namespace].
    rewrite (is_task_email_bound network _ (getenv env "OPEN_WEBUI_JWT") m (api_url_of env)).
    + repeat split; reflexivity.
    + cbn [fc_globals]. rewrite lookup_insert_ne by discriminate.
      rewrite Hf. apply loaded_fc_jwt.
    + cbn [fc_globals]. apply lookup_insert_eq.
    + cbn [fc_globals]. rewrite lookup_insert_ne by discriminate.
      rewrite Hf. apply loaded_fc_api_url.
  - unfold bind, store; cbn [with_namespace namespace].
    rewrite (is_task_email_loaded network env st) by exact Hf.
    rewrite (is_task_email_bound network _ (getenv env "OPEN_WEBUI_JWT")
               (PStr "llama3.2:latest") (api_url_of env)).
    + reflexivity.
    + cbn [fc_globals]. rewrite lookup_insert_ne by discriminate.
      rewrite Hf. apply loaded_fc_jwt.
    + cbn [fc_globals]. rewrite lookup_insert_ne by discriminate.
      rewrite Hf. apply loaded_fc_model.
    + cbn [fc_globals]. rewrite lookup_insert_ne by discriminate.
      rewrite Hf. apply loaded_fc_api_url.
Qed.

Lemma model_is_read_at_call_time_witness :
  running ok_network office_env office
  ∧ (∃ req,
        sent (snd ((store Fc "model" (PStr "mistral:7b") ;;
                    is_task_email ok_network (PStr "hello")) office)) = sent office ++ [req]
        ∧ get_path [Key "model"] (req_json req) = Some (PStr "mistral:7b")
        ∧ req_url req = api_url_of office_env
        ∧ req_headers req = headers (getenv office_env "OPEN_WEBUI_JWT"))
  ∧ sent (snd ((store Fc "default_model" (PStr "mistral:7b") ;;
                is_task_email ok_network (PStr "hello")) office))
    = sent (snd (is_task_email ok_network (PStr "hello") office)).
Proof.
  split.
  - apply running_loaded_state.
  - apply (model_is_read_at_call_time ok_network office_env office).
    apply running_loaded_state.
Defined.

(** X7: [from config import ...] copies the bindings. Once [fc] is imported,
    binding any name of [config] to any value leaves the result of a call and
    the request it posts as they were. *)
Theorem config_rebinding_is_not_seen network env st name (x v : pyval) :
  running network env st ->
  fst ((store Config name x ;; is_task_email network v) st)
  = fst (is_task_email network v st)
  ∧ sent (snd ((store Config name x ;; is_task_email network v) st))
    = sent (snd (is_task_email network v st)).
Proof.
  intros Hrun. destruct (running_inv network env st Hrun) as (_ & _ & Hf).
  unfold bind, store; cbn [with_namespace namespace].
  rewrite (is_task_email_loaded network env st) by exact Hf.
  rewrite (is_task_email_loaded network env (State _ _ _ _)) by exact Hf.
  split; reflexivity.
Qed.

Lemma config_rebinding_is_not_seen_witness :
  running ok_network office_env office
  ∧ fst ((store Config "jwt" (PStr "other") ;; is_task_email ok_network (PStr "hello")) office)
    = fst (is_task_email ok_network (PStr "hello") office)
  ∧ sent (snd ((store Config "jwt" (PStr "other") ;;
                is_task_email ok_network (PStr "hello")) office))
    = sent (snd (is_task_email ok_network (PStr "hello") office)).
Proof.
  split.
  - apply running_loaded_state.
  - apply (config_rebinding_is_not_seen ok_network office_env office).
    apply running_loaded_state.
Defined.



(** ** Several calls *)

Lemma call_each_running network env st emails :
  running network env st -> running network env (call_each network emails st).
Proof.
  revert st. induction emails as [|v emails IH]; intros st Hrun; [exact Hrun|].
  apply IH. by apply running_called.
Qed.

(** X9: calls made one after the other post one request each, in the order
    of the calls, each with its own argument as user content, whatever the
    service answered in between. *)
Theorem calls_are_posted_in_order network env st (emails : list pyval) :
  running network env st ->
  ∃ reqs,
    sent (call_each network emails st) = sent st ++ reqs
    ∧ map (fun r => get_path user_content_path (req_json r)) reqs = map Some emails.
Proof.
  revert st. induction emails as [|v emails IH]; intros st Hrun.
  - exists []. split; [by rewrite app_nil_r | reflexivity].
  - destruct (IH (snd (is_task_email network v st))) as (reqs & Hsent & Hmap).
    { by apply running_called. }
    exists (request_of env v :: reqs). split.
    + change (call_each network (v :: emails) st)
        with (call_each network emails (snd (is_task_email network v st))).
      rewrite Hsent, (sent_after_call network env st) by exact Hrun.
      by rewrite <- app_assoc.
    + cbn [map]. rewrite Hmap. reflexivity.
Qed.

Lemma calls_are_posted_in_order_witness :
  running dead_network office_env office
  ∧ ∃ reqs,
      sent (call_each dead_network [PStr "first"; PStr ""; PStr "third"] office)
      = sent office ++ reqs
      ∧ map (fun r => get_path user_content_path (req_json r)) reqs
        = map Some [PStr "first"; PStr ""; PStr "third"].
Proof.
  split.
  - apply running_loaded_state.
  - apply (calls_are_posted_in_order dead_network office_env office).
    apply running_loaded_state.
Defined.

(** X10: a request does not depend on what was posted or answered before.
    Two processes under the same environment, whatever their services and
    earlier calls, post the same request for the same argument. *)
Theorem request_ignores_history network1 network2 env st1 st2 (v : pyval) :
  running network1 env st1 ->
  running network2 env st2 ->
  ∃ req,
    sent (snd (is_task_email network1 v st1)) = sent st1 ++ [req]
    ∧ sent (snd (is_task_email network2 v st2)) = sent st2 ++ [req].
Proof.
  intros Hrun1 Hrun2. exists (request_of env v).
  split; by apply sent_after_call.
Qed.

Lemma request_ignores_history_witness :
  running ok_network office_env office
  ∧ running dead_network office_env
      (call_each dead_network [PStr "one"; PStr "two"] office)
  ∧ ∃ req,
      sent (snd (is_task_email ok_network (PStr "hello") office)) = sent office ++ [req]
      ∧ sent (snd (is_task_email dead_network (PStr "hello")
                     (call_each dead_network [PStr "one"; PStr "two"] office)))
        = sent (call_each dead_network [PStr "one"; PStr "two"] office) ++ [req].
Proof.
  assert (H1 : running ok_network office_env office) by apply running_loaded_state.
  assert (H2 : running dead_network office_env
                 (call_each dead_network [PStr "one"; PStr "two"] office))
    by (apply call_each_running; apply running_loaded_state).
  split; [exact H1|]. split; [exact H2|].
  exact (request_ignores_history ok_network dead_network office_env _ _
           (PStr "hello") H1 H2).
Defined.

(** X11: on a request the e-mail can be read back: when two calls post the
    same payload, their arguments were the same. *)
Theorem payload_determines_email network1 network2 env1 env2 st1 st2 (v1 v2 : pyval) r1 r2 :
  running network1 env1 st1 ->
  running network2 env2 st2 ->
  sent (snd (is_task_email network1 v1 st1)) = sent st1 ++ [r1] ->
  sent (snd (is_task_email network2 v2 st2)) = sent st2 ++ [r2] ->
  req_json r1 = req_json r2 ->
  v1 = v2.
Proof.
  intros Hrun1 Hrun2 H1 H2 Heq.
  rewrite (sent_after_call network1 env1 st1) in H1 by exact Hrun1.
  rewrite (sent_after_call network2 env2 st2) in H2 by exact Hrun2.
  apply app_inv_head in H1. apply app_inv_head in H2.
  inversion H1; subst r1. inversion H2; subst r2.
  assert (Hget : get_path user_content_path (req_json (request_of env1 v1))
                 = get_path user_content_path (req_json (request_of env2 v2)))
    by (by rewrite Heq).
  by inversion Hget.
Qed.

Lemma payload_determines_email_witness :
  running ok_network office_env office
  ∧ running dead_network home_env home
  ∧ sent (snd (is_task_email ok_network (PStr "hello") office))
    = sent office ++ [request_of office_env (PStr "hello")]
  ∧ sent (snd (is_task_email dead_network (PStr "hello") home))
    = sent home ++ [request_of home_env (PStr "hello")]
  ∧ req_json (request_of office_env (PStr "hello"))
    = req_json (request_of home_env (PStr "hello"))
  ∧ PStr "hello" = PStr "hello".
Proof.
  assert (H1 : running ok_network office_env office) by apply running_loaded_state.
  assert (H2 : running dead_network home_env home) by apply running_loaded_state.
  assert (H3 : sent (snd (is_task_email ok_network (PStr "hello") office))
               = sent office ++ [request_of office_env (PStr "hello")])
    by (apply sent_after_call; exact H1).
  assert (H4 : sent (snd (is_task_email dead_network (PStr "hello") home))
               = sent home ++ [request_of home_env (PStr "hello")])
    by (apply sent_after_call; exact H2).
  assert (H5 : req_json (request_of office_env (PStr "hello"))
               = req_json (request_of home_env (PStr "hello")))
    by reflexivity.
  repeat (split; [assumption|]).
  exact (payload_determines_email ok_network dead_network office_env home_env office home
           (PStr "hello") (PStr "hello") _ _ H1 H2 H3 H4 H5).
Defined.

(** ** Importing *)





(** ** A call without the globals *)

